(** * bedrock-world: the tool-calling round trip of [extra_tooling.py]
    and the cosine similarity of [similarity.py]

    A shallow embedding of [cpf_to_username], [invoke_model_with_tools]
    and [cosineSimilarity], and their properties.

    Conventions of the embedding.
    - A Python [str] is a [string]; each character is one code point, so
      the model covers text whose code points are below 256.
    - The values produced by [json.loads] are the type [json]; Python's
      [None] is JSON [null].  A dict is the list of its items in insertion
      order, the keys being distinct.  A number is an integer: the code
      never looks into a number, it only finds that it is neither a dict,
      nor a str, nor iterable.
    - [cosineSimilarity] of [similarity.py] is embedded on vectors of ints
      (module [Similarity]): sums and products of ints are exact, and
      floats come in where the code raises to the power 0.5, multiplies
      and divides.  A float is an IEEE 754 double, [spec_float] at
      precision 53.
    - A Python call either returns or raises: [result].  The only effect
      the code has besides printing is the call of the inference endpoint;
      the calls are recorded in order (monad [M]).  Printing is left out. *)

From Stdlib Require Import ZArith Ascii.
From Stdlib Require Import Floats.SpecFloat.
From stdpp Require Import base option list strings gmap.

(** ** Python values and exceptions *)

#[warnings="-register-all"]
Inductive json : Type :=
| JNull
| JBool (b : bool)
| JNum (n : Z)
| JStr (s : string)
| JArr (items : list json)
| JObj (fields : list (string * json)).

(** The exceptions the code can meet.  [InferenceError] stands for whatever
    [client.invoke_model], [response['body'].read()] or [json.loads]
    raises. *)
Inductive exn : Type :=
| TypeError
| AttributeError
| InferenceError (msg : string).

Inductive result (A : Type) : Type :=
| Ok (a : A)
| Raise (e : exn).
Arguments Ok {A} a.
Arguments Raise {A} e.

Definition rbind {A B} (c : result A) (k : A -> result B) : result B :=
  match c with
  | Ok a => k a
  | Raise e => Raise e
  end.

Declare Scope result_scope.
Delimit Scope result_scope with result.
Notation "x <- c ;; k" := (rbind c (fun x => k))
  (at level 100, c at next level, right associativity) : result_scope.

(** [d[k]] on the items of a dict. *)
Fixpoint assoc (k : string) (fields : list (string * json)) : option json :=
  match fields with
  | [] => None
  | (k', v) :: rest => if String.eqb k k' then Some v else assoc k rest
  end.

(** [d.get(k, dflt)]: only a dict has the attribute [get]. *)
Definition py_get (d : json) (k : string) (dflt : json) : result json :=
  match d with
  | JObj fields => Ok (default dflt (assoc k fields))
  | _ => Raise AttributeError
  end.

(** [v == s] for a string literal [s]. *)
Definition py_eq_str (v : json) (s : string) : bool :=
  match v with
  | JStr s' => String.eqb s' s
  | _ => false
  end.

(** [for x in v]: a list yields its items, a str its characters, a dict
    its keys; nothing else is iterable. *)
Definition py_iter (v : json) : result (list json) :=
  match v with
  | JArr items => Ok items
  | JStr s => Ok (map (fun c => JStr (String c EmptyString)) (String.list_ascii_of_string s))
  | JObj fields => Ok (map (fun kv => JStr (fst kv)) fields)
  | _ => Raise TypeError
  end.

(** ** The handler [cpf_to_username] *)

(** The character U+00E3 of the first name in the table. *)
Definition a_tilde : ascii := "227"%char.

Definition CPF_DATABASE : gmap string string :=
  list_to_map
    [ ("123.456.789-00", "Jo" +:+ String a_tilde "o da Silva");
      ("987.654.321-00", "Maria Santos");
      ("111.222.333-44", "Pedro Oliveira");
      ("555.666.777-88", "Ana Costa");
      ("12345678900", "Jo" +:+ String a_tilde "o da Silva");
      ("98765432100", "Maria Santos");
      ("11122233344", "Pedro Oliveira");
      ("55566677788", "Ana Costa") ].

(** [char.isdigit()] for one character: below 256 the digits are
    [0]..[9] and the superscripts U+00B2, U+00B3 and U+00B9. *)
Definition isdigit (c : ascii) : bool :=
  let n := N_of_ascii c in
  ((48 <=? n) && (n <=? 57) || (n =? 178) || (n =? 179) || (n =? 185))%N.

(** [s.isdigit()] for a str: every character is a digit and there is at
    least one. *)
Definition str_isdigit (s : string) : bool :=
  match s with
  | EmptyString => false
  | _ => forallb isdigit (String.list_ascii_of_string s)
  end.

(** [''.join(char for char in cpf if char.isdigit())], over the items that
    the iteration of [cpf] yields: only a str has [isdigit]. *)
Fixpoint join_digits (chars : list json) : result string :=
  match chars with
  | [] => Ok ""
  | JStr char :: rest =>
      (tail <- join_digits rest ;;
       Ok (if str_isdigit char then char +:+ tail else tail))%result
  | _ :: _ => Raise AttributeError
  end.

(** [cpf_to_username(cpf)] for whatever the model put under ["cpf"].  The
    membership test [cpf in CPF_DATABASE] hashes [cpf]: a str is looked up,
    a list or a dict is unhashable ([TypeError]).  [None], a bool and a
    number do not get that far, as they are not iterable. *)
Definition cpf_to_username (cpf : json) : result string :=
  (chars <- py_iter cpf ;;
   normalized_cpf <- join_digits chars ;;
   match cpf with
   | JStr cpf =>
       match CPF_DATABASE !! cpf with
       | Some name => Ok name
       | None =>
           match CPF_DATABASE !! normalized_cpf with
           | Some name => Ok name
           | None => Ok ("CPF " +:+ cpf +:+ " not found in database")
           end
       end
   | _ => Raise TypeError
   end)%result.

(** ** The inference endpoint and the monad of the round trip *)

(** One call of [client.invoke_model]: the model identifier and the value
    that [json.dumps] serialises into the request body. *)
Record call : Type := Call { modelId : string; body : json }.

(** The endpoint is the outside world: to the [n]-th call of a run (counted
    from 0) it answers with the parsed response body or fails. *)
Definition endpoint : Type := nat -> call -> result json.

(** Computations that may raise and that record the calls made so far; the
    record survives an exception. *)
Definition M (A : Type) : Type := list call -> result A * list call.

(** Sequencing: an exception skips the rest and keeps the calls made. *)
Definition mret {A} (a : A) : M A := fun log => (Ok a, log).

Definition mbind {A B} (c : M A) (k : A -> M B) : M B :=
  fun log =>
    match c log with
    | (Ok a, log') => k a log'
    | (Raise e, log') => (Raise e, log')
    end.

(** A step that makes no call. *)
Definition lift {A} (r : result A) : M A := fun log => (r, log).

(** [try: c  except Exception: return None] around a body that ends in
    [return s]. *)
Definition try_except_None {A} (c : M A) : M (option A) :=
  fun log =>
    match c log with
    | (Ok a, log') => (Ok (Some a), log')
    | (Raise _, log') => (Ok None, log')
    end.

Declare Scope M_scope.
Delimit Scope M_scope with M.
Notation "x <~ c ;; k" := (mbind c (fun x => k))
  (at level 100, c at next level, right associativity) : M_scope.

(** [json.loads(client.invoke_model(modelId=..., body=...)['body'].read())] *)
Definition invoke_model (ep : endpoint) (model_id : string) (request_body : json)
  : M json :=
  fun log =>
    let c := Call model_id request_body in
    (ep (length log) c, log ++ [c]).

(** ** [invoke_model_with_tools] *)

(** The character U+00ED of the tool description. *)
Definition i_acute : ascii := "237"%char.

(** Lines 56-71: the tool declarations sent with every request. *)
Definition tools : json :=
  JArr [ JObj
    [ ("name", JStr "cpf_to_username");
      ("description", JStr ("Converts a Brazilian CPF (Cadastro de Pessoas F"
         +:+ String i_acute "sicas) number to the full name of the person. The CPF can be provided with or without formatting (dots and dashes)."));
      ("input_schema", JObj
        [ ("type", JStr "object");
          ("properties", JObj
            [ ("cpf", JObj
                [ ("type", JStr "string");
                  ("description", JStr "The CPF number to look up. Can be formatted (e.g., 123.456.789-00) or unformatted (e.g., 12345678900)") ]) ]);
          ("required", JArr [JStr "cpf"]) ]) ] ].

Definition model_id : string := "anthropic.claude-3-sonnet-20240229-v1:0".

(** Lines 88-93: the request around the conversation [messages]. *)
Definition request_body (messages : list json) : json :=
  JObj [ ("anthropic_version", JStr "bedrock-2023-05-31");
         ("max_tokens", JNum 500);
         ("tools", tools);
         ("messages", JArr messages) ].

(** An entry of [messages]. *)
Definition message (role : string) (content : json) : json :=
  JObj [ ("role", JStr role); ("content", content) ].

(** Lines 139-143: an entry of [tool_results]. *)
Definition tool_result (tool_use_id : json) (res : string) : json :=
  JObj [ ("type", JStr "tool_result");
         ("tool_use_id", tool_use_id);
         ("content", JStr res) ].

(** The loop [for block in content_blocks] that fills [tool_results]. *)
Fixpoint tool_loop (blocks : list json) (tool_results : list json)
  : result (list json) :=
  match blocks with
  | [] => Ok tool_results
  | block :: rest =>
      (ty <- py_get block "type" JNull ;;
       if py_eq_str ty "tool_use" then
         tool_name <- py_get block "name" JNull ;;
         tool_input <- py_get block "input" (JObj []) ;;
         tool_use_id <- py_get block "id" JNull ;;
         if py_eq_str tool_name "cpf_to_username" then
           cpf <- py_get tool_input "cpf" (JStr "") ;;
           res <- cpf_to_username cpf ;;
           tool_loop rest (tool_results ++ [tool_result tool_use_id res])
         else tool_loop rest tool_results
       else tool_loop rest tool_results)%result
  end.

(** The loop that builds [final_response]; [+=] on a str takes a str. *)
Fixpoint text_loop (blocks : list json) (final_response : string)
  : result string :=
  match blocks with
  | [] => Ok final_response
  | block :: rest =>
      (ty <- py_get block "type" JNull ;;
       if py_eq_str ty "text" then
         text <- py_get block "text" (JStr "") ;;
         match text with
         | JStr t => text_loop rest (final_response +:+ t)
         | _ => Raise TypeError
         end
       else text_loop rest final_response)%result
  end.

(** Lines 164-170: the text of a response body. *)
Definition final_text (response_body : json) : result string :=
  (content <- py_get response_body "content" (JArr []) ;;
   blocks <- py_iter content ;;
   text_loop blocks "")%result.

(** Lines 109-157: the branch taken when the model asks for a tool.  It
    yields the response body of the second call. *)
Definition tool_round (ep : endpoint) (messages : list json) (response_body : json)
  : M json :=
  (content_blocks <~ lift (py_get response_body "content" (JArr [])) ;;
   let messages := messages ++ [message "assistant" content_blocks] in
   tool_results <~ lift (blocks <- py_iter content_blocks ;; tool_loop blocks [])%result ;;
   let messages := messages ++ [message "user" (JArr tool_results)] in
   invoke_model ep model_id (request_body messages))%M.

(** Lines 96-170: the body of the [try]. *)
Definition try_body (ep : endpoint) (user_message : string) : M string :=
  (let messages := [message "user" (JStr user_message)] in
   response_body <~ invoke_model ep model_id (request_body messages) ;;
   stop_reason <~ lift (py_get response_body "stop_reason" JNull) ;;
   response_body <~ (if py_eq_str stop_reason "tool_use"
                     then tool_round ep messages response_body
                     else mret response_body) ;;
   lift (final_text response_body))%M.

(** [invoke_model_with_tools(user_message)]: a str, or [None] after any
    exception. *)
Definition invoke_model_with_tools (ep : endpoint) (user_message : string)
  : M (option string) :=
  try_except_None (try_body ep user_message).

(** A run starts with no call made; it gives the outcome of the function
    and the calls in the order they were made. *)
Definition run (ep : endpoint) (user_message : string)
  : result (option string) * list call :=
  invoke_model_with_tools ep user_message [].

Definition outcome (ep : endpoint) (user_message : string) : result (option string) :=
  fst (run ep user_message).

Definition calls (ep : endpoint) (user_message : string) : list call :=
  snd (run ep user_message).

(** ** Vocabulary of the statements *)

(** The first request of a run and the request that follows a tool round. *)
Definition first_call (user_message : string) : call :=
  Call model_id (request_body [message "user" (JStr user_message)]).

Definition second_call (user_message : string) (content_blocks : json)
    (tool_results : list json) : call :=
  Call model_id (request_body
    [ message "user" (JStr user_message);
      message "assistant" content_blocks;
      message "user" (JArr tool_results) ]).

(** What the function returns once the text loop has run. *)
Definition returned (r : result string) : result (option string) :=
  match r with
  | Ok s => Ok (Some s)
  | Raise _ => Ok None
  end.

(** The response to the last call of a run, when that call was answered. *)
Definition final_response (ep : endpoint) (user_message : string) : option json :=
  let log := calls ep user_message in
  match last log with
  | Some c =>
      match ep (length log - 1) c with
      | Ok response_body => Some response_body
      | Raise _ => None
      end
  | None => None
  end.

(** The digits of a str, in order: what [normalized_cpf] is when [cpf] is
    a str. *)
Fixpoint keep_digits (cpf : string) : string :=
  match cpf with
  | EmptyString => EmptyString
  | String c rest =>
      if isdigit c then String c (keep_digits rest) else keep_digits rest
  end.

(** What the handler returns on a str. *)
Definition cpf_to_username_str (cpf : string) : string :=
  match CPF_DATABASE !! cpf with
  | Some name => name
  | None =>
      match CPF_DATABASE !! keep_digits cpf with
      | Some name => name
      | None => "CPF " +:+ cpf +:+ " not found in database"
      end
  end.

Definition is_str (v : json) : bool :=
  match v with JStr _ => true | _ => false end.

(** Dynamic types of a value and of a block. *)
Definition is_dict (v : json) : bool :=
  match v with JObj _ => true | _ => false end.

Definition has_type (ty : string) (block : json) : bool :=
  match block with
  | JObj fields => py_eq_str (default JNull (assoc "type" fields)) ty
  | _ => false
  end.

(** The text carried by a block: one string for a text block, nothing for
    any other block. *)
Definition text_of_block (block : json) : list string :=
  match block with
  | JObj fields =>
      if py_eq_str (default JNull (assoc "type" fields)) "text" then
        match default (JStr "") (assoc "text" fields) with
        | JStr t => [t]
        | _ => []
        end
      else []
  | _ => []
  end.

(** The texts of the text blocks of a response body, in order. *)
Definition text_blocks (response_body : json) : list string :=
  match response_body with
  | JObj fields =>
      match default (JArr []) (assoc "content" fields) with
      | JArr blocks => flat_map text_of_block blocks
      | _ => []
      end
  | _ => []
  end.

(** Concatenation, in order. *)
Definition concat_texts (texts : list string) : string :=
  foldr String.append "" texts.

(** A block the text loop accepts: a dict whose ["text"], when the block
    is a text block, is a str. *)
Definition text_typed (block : json) : bool :=
  match block with
  | JObj fields =>
      negb (py_eq_str (default JNull (assoc "type" fields)) "text")
      || is_str (default (JStr "") (assoc "text" fields))
  | _ => false
  end.

(** The model asked for a tool: the test of line 109. *)
Definition tool_requested (response_body : json) : bool :=
  match response_body with
  | JObj fields => py_eq_str (default JNull (assoc "stop_reason" fields)) "tool_use"
  | _ => false
  end.

(** The content blocks of a response body whose content is a list. *)
Definition blocks_of (response_body : json) : option (list json) :=
  match response_body with
  | JObj fields =>
      match default (JArr []) (assoc "content" fields) with
      | JArr blocks => Some blocks
      | _ => None
      end
  | _ => None
  end.

(** The id of a block. *)
Definition tool_use_id (block : json) : json :=
  match block with
  | JObj fields => default JNull (assoc "id" fields)
  | _ => JNull
  end.

(** The argument the handler is invoked with: defined for a tool-use block
    that names the registered tool and whose input is a dict. *)
Definition handler_argument (block : json) : option json :=
  match block with
  | JObj fields =>
      if py_eq_str (default JNull (assoc "type" fields)) "tool_use"
         && py_eq_str (default JNull (assoc "name" fields)) "cpf_to_username"
      then
        match default (JObj []) (assoc "input" fields) with
        | JObj args => Some (default (JStr "") (assoc "cpf" args))
        | _ => None
        end
      else None
  | _ => None
  end.

(** A tool-use block whose name is not the registered one. *)
Definition unknown_tool_use (block : json) : bool :=
  match block with
  | JObj fields =>
      py_eq_str (default JNull (assoc "type" fields)) "tool_use"
      && negb (py_eq_str (default JNull (assoc "name" fields)) "cpf_to_username")
  | _ => false
  end.

(** The handler is invoked on a str. *)
Definition handler_typed (block : json) : bool :=
  match handler_argument block with
  | Some (JStr _) => true
  | _ => false
  end.

(** The tool result a block gives rise to. *)
Definition resolved (block : json) : list json :=
  match handler_argument block with
  | Some (JStr cpf) => [tool_result (tool_use_id block) (cpf_to_username_str cpf)]
  | _ => []
  end.

(** A block the tool loop gets through: a dict that is not a tool use, or
    names an unknown tool, or has the handler invoked on a str. *)
Definition tool_typed (block : json) : bool :=
  is_dict block
  && (negb (has_type "tool_use" block) || unknown_tool_use block
      || handler_typed block).

(** Every block is a dict and every tool use names the registered tool
    with a str to look up. *)
Definition registered_typed (block : json) : bool :=
  is_dict block && (negb (has_type "tool_use" block) || handler_typed block).

(** [result] is the tool result of the tool-use block [block]. *)
Definition answers (block result : json) : Prop :=
  exists cpf,
    handler_argument block = Some (JStr cpf)
    /\ result = tool_result (tool_use_id block) (cpf_to_username_str cpf).

(** An endpoint that answers from a script and fails once it is used up. *)
Definition scripted (responses : list (result json)) : endpoint :=
  fun n _ => nth n responses (Raise (InferenceError "connection closed")).

(** Blocks and response bodies as the endpoint sends them. *)
Definition text_block (t : string) : json :=
  JObj [ ("type", JStr "text"); ("text", JStr t) ].

Definition tool_use_block (id name : string) (input : json) : json :=
  JObj [ ("type", JStr "tool_use"); ("id", JStr id);
         ("name", JStr name); ("input", input) ].

Definition response (stop_reason : string) (blocks : list json) : json :=
  JObj [ ("stop_reason", JStr stop_reason); ("content", JArr blocks) ].

(** ** [cosineSimilarity] on vectors of ints *)
Module Similarity.

(** What the arithmetic of the function can raise. *)
Inductive error : Type :=
| OverflowError
| ZeroDivisionError.

Inductive raises (A : Type) : Type :=
| Returns (a : A)
| Raises (e : error).
Arguments Returns {A} a.
Arguments Raises {A} e.

(** The format of a Python float. *)
Definition prec : Z := 53%Z.
Definition emax : Z := 1024%Z.

(** [0.0] and [1.0]. *)
Definition zero : spec_float := S754_zero false.
Definition one : spec_float := SFone prec emax.

(** [float(n)], the conversion that an operation on an int and a float
    starts with: the nearest double, ties to even, and [OverflowError]
    when that is beyond the largest double. *)
Definition float_of_int (n : Z) : raises spec_float :=
  match binary_normalize prec emax n 0%Z false with
  | S754_infinity _ => Raises OverflowError
  | x => Returns x
  end.

(** [sum(...)] of ints, from 0 and from the left. *)
Definition sum (l : list Z) : Z := fold_left Z.add l 0%Z.

(** [sum(a * a for a in vec)]. *)
Definition sum_squares (vec : list Z) : Z :=
  sum (map (fun a => (a * a)%Z) vec).

Section Pow.

(** The function [pow(x, 0.5)] of the C library, which Python calls for a
    double [x] above 0 other than 1; it is not specified bit for bit. *)
Variable libm_pow_half : spec_float -> spec_float.

(** [n ** 0.5] for an int [n] that is not negative, as a sum of squares
    is: [n] is converted, and the power of [0.0] is [0.0] and that of
    [1.0] is [1.0] without a call of the C library. *)
Definition pow_half (n : Z) : raises spec_float :=
  match float_of_int n with
  | Returns x =>
      Returns (if SFeqb x zero then zero
               else if SFeqb x one then one
               else libm_pow_half x)
  | Raises e => Raises e
  end.

(** [n / d] for an int [n] and a float [d]: [n] is converted first, then
    the divisor is tested. *)
Definition truediv (n : Z) (d : spec_float) : raises spec_float :=
  match float_of_int n with
  | Returns a =>
      if SFeqb d zero then Raises ZeroDivisionError
      else Returns (SFdiv prec emax a d)
  | Raises e => Raises e
  end.

(** Lines 3-26. *)
Definition cosineSimilarity (vec1 vec2 : list Z) : raises spec_float :=
  let dot_product := sum (zip_with Z.mul vec1 vec2) in
  match pow_half (sum_squares vec1) with
  | Raises e => Raises e
  | Returns magnitude1 =>
      match pow_half (sum_squares vec2) with
      | Raises e => Raises e
      | Returns magnitude2 =>
          if SFeqb magnitude1 zero || SFeqb magnitude2 zero then Returns zero
          else truediv dot_product (SFmul prec emax magnitude1 magnitude2)
      end
  end.

End Pow.


(** The instance the examples run with: the square root of IEEE 754,
    correctly rounded, where it is 1.0 at least, as it is on the doubles
    from 1.0 on, and 1.0 elsewhere. *)
Definition sqrt (x : spec_float) : spec_float :=
  let root := SFsqrt prec emax x in
  if SFleb one root then root else one.

End Similarity.

(** The message of a lookup miss. *)
Definition not_found (cpf : string) : string :=
  "CPF " +:+ cpf +:+ " not found in database".

(** ** Scenarios

    Concrete exchanges with a scripted endpoint, used below to run the
    statements. *)
Module Scenario.

Definition cpf_use (id : string) (cpf : json) : json :=
  tool_use_block id "cpf_to_username" (JObj [("cpf", cpf)]).

(** The model answers at once. *)
Definition greeting : json :=
  response "end_turn" [text_block "Hello, "; text_block "world."].
Definition ep_greeting : endpoint := scripted [Ok greeting].

(** One lookup, then the answer in two text blocks. *)
Definition ask_pedro : json :=
  response "tool_use" [cpf_use "toolu_01" (JStr "11122233344")].
Definition ep_pedro : endpoint :=
  scripted [ Ok ask_pedro;
             Ok (response "end_turn"
                   [text_block "The name is "; text_block "Pedro Oliveira."]) ].

(** The second response asks for a tool again. *)
Definition ask_again : json :=
  response "tool_use"
    [text_block "One more lookup."; cpf_use "toolu_02" (JStr "98765432100")].
Definition ep_again : endpoint :=
  scripted [ Ok (response "tool_use" [cpf_use "toolu_01" (JStr "55566677788")]);
             Ok ask_again;
             Ok (response "end_turn" [text_block "Never asked for."]) ].

(** The endpoint fails at the first call; at the second call. *)
Definition ep_throttled : endpoint :=
  scripted [Raise (InferenceError "ThrottlingException")].
Definition ep_timeout : endpoint :=
  scripted [ Ok (response "tool_use" [cpf_use "toolu_01" (JStr "123.456.789-00")]);
             Raise (InferenceError "ReadTimeout") ].

(** The model asks for a tool that is not registered. *)
Definition lookup_use : json :=
  tool_use_block "toolu_01" "lookup" (JObj [("key", JStr "42")]).
Definition ep_lookup : endpoint :=
  scripted [ Ok (response "tool_use" [lookup_use]);
             Ok (response "end_turn" [text_block "The answer is Alice."]) ].

(** A registered and an unregistered tool in one response. *)
Definition weather_use : json :=
  tool_use_block "toolu_02" "get_weather" (JObj [("city", JStr "Recife")]).
Definition ask_mixed : json :=
  response "tool_use" [cpf_use "toolu_01" (JStr "555.666.777-88"); weather_use].
Definition ep_mixed : endpoint :=
  scripted [ Ok ask_mixed; Ok (response "end_turn" [text_block "Ana Costa."]) ].

(** The model passes the CPF as a number; as a list of strs. *)
Definition ep_number : endpoint :=
  scripted [ Ok (response "tool_use" [cpf_use "toolu_01" (JNum 12345678900)]);
             Ok (response "end_turn" [text_block "I could not look it up."]) ].
Definition list_use : json :=
  cpf_use "toolu_02" (JArr [JStr "987"; JStr "654"]).
Definition ask_list : json :=
  response "tool_use"
    [text_block "Looking up."; cpf_use "toolu_01" (JStr "111.222.333-44"); list_use].
Definition ep_list : endpoint :=
  scripted [ Ok ask_list; Ok (response "end_turn" [text_block "Done."]) ].

(** The model passes [null] as CPF. *)
Definition null_use : json := cpf_use "toolu_01" JNull.
Definition ep_null : endpoint :=
  scripted [ Ok (response "tool_use" [null_use]);
             Ok (response "end_turn" [text_block "Nobody."]) ].

(** The response holds a tool use but stopped at the token limit. *)
Definition truncated : json :=
  response "max_tokens"
    [text_block "Let me look that up."; cpf_use "toolu_01" (JStr "123.456.789-00")].
Definition ep_truncated : endpoint :=
  scripted [ Ok truncated; Ok (response "end_turn" [text_block "Never asked for."]) ].

(** Two lookups in one response. *)
Definition ask_two : json :=
  response "tool_use"
    [ text_block "I will look both up.";
      cpf_use "toolu_01" (JStr "987.654.321-00");
      cpf_use "toolu_02" (JStr "11122233344") ].
Definition ep_two : endpoint :=
  scripted [ Ok ask_two;
             Ok (response "end_turn" [text_block "Maria Santos and Pedro Oliveira."]) ].

(** An unregistered tool, then a lookup with [null] as CPF. *)
Definition ask_unknown_and_null : json :=
  response "tool_use" [weather_use; null_use].
Definition ep_unknown_and_null : endpoint :=
  scripted [ Ok ask_unknown_and_null;
             Ok (response "end_turn" [text_block "Never asked for."]) ].

End Scenario.

(** Further exchanges. *)
Module Exchange.

(** The model sends a block that is not a dict. *)
Definition stray_block : json :=
  response "end_turn" [text_block "Half an answer."; JStr "stray"].
Definition ep_stray : endpoint := scripted [Ok stray_block].

(** The model sends a list instead of an object. *)
Definition ep_array : endpoint := scripted [Ok (JArr [text_block "Hello."])].

(** A tool use without input; without an id and without a CPF. *)
Definition bare_use : list (string * json) :=
  [ ("type", JStr "tool_use"); ("id", JStr "toolu_01");
    ("name", JStr "cpf_to_username") ].
Definition anonymous_use : list (string * json) :=
  [ ("type", JStr "tool_use"); ("name", JStr "cpf_to_username");
    ("input", JObj [("name", JStr "Maria")]) ].

(** The tool input is a str instead of a dict. *)
Definition ask_flat : json :=
  response "tool_use"
    [ Scenario.cpf_use "toolu_01" (JStr "55566677788");
      tool_use_block "toolu_02" "cpf_to_username" (JStr "98765432100") ].
Definition ep_flat : endpoint :=
  scripted [ Ok ask_flat; Ok (response "end_turn" [text_block "Never asked for."]) ].

End Exchange.

(** ** The handler *)

Example lookup_formatted :
  cpf_to_username (JStr "123.456.789-00") = Ok ("Jo" +:+ String a_tilde "o da Silva").
Proof. vm_compute. reflexivity. Qed.

Example lookup_spaces :
  cpf_to_username (JStr "987 654 321 00") = Ok "Maria Santos".
Proof. vm_compute. reflexivity. Qed.

Example lookup_miss :
  cpf_to_username (JStr "999.999.999-99") = Ok "CPF 999.999.999-99 not found in database".
Proof. vm_compute. reflexivity. Qed.

(** On the characters of a str the generator keeps the digits. *)
Lemma join_digits_chars (s : string) :
  join_digits (map (fun c => JStr (String c EmptyString)) (String.list_ascii_of_string s))
    = Ok (keep_digits s).
Proof.
  induction s as [|c s IH]; [reflexivity|].
  cbn [String.list_ascii_of_string map join_digits keep_digits].
  rewrite IH. cbn [rbind str_isdigit String.list_ascii_of_string forallb].
  rewrite andb_true_r. now destruct (isdigit c).
Qed.

(** On a str the handler returns. *)
Lemma cpf_to_username_on_str (cpf : string) :
  cpf_to_username (JStr cpf) = Ok (cpf_to_username_str cpf).
Proof.
  unfold cpf_to_username, cpf_to_username_str. cbn [py_iter rbind].
  rewrite join_digits_chars. cbn [rbind].
  destruct (CPF_DATABASE !! cpf); [reflexivity|].
  now destruct (CPF_DATABASE !! keep_digits cpf).
Qed.

(** On anything else it raises. *)
Lemma cpf_to_username_not_str (cpf : json) :
  is_str cpf = false -> exists e, cpf_to_username cpf = Raise e.
Proof.
  unfold cpf_to_username.
  destruct cpf as [| | |s|items|fields]; try discriminate; intros _;
    cbn [py_iter rbind]; try (eexists; reflexivity).
  - destruct (join_digits items); eexists; reflexivity.
  - destruct (join_digits _); eexists; reflexivity.
Qed.

(** ** Shape of a run *)

Lemma run_unfold (ep : endpoint) (user_message : string) :
  run ep user_message =
    let c1 := first_call user_message in
    match ep 0 c1 with
    | Raise _ => (Ok None, [c1])
    | Ok body1 =>
        match py_get body1 "stop_reason" JNull with
        | Raise _ => (Ok None, [c1])
        | Ok stop_reason =>
            if py_eq_str stop_reason "tool_use" then
              match py_get body1 "content" (JArr []) with
              | Raise _ => (Ok None, [c1])
              | Ok content_blocks =>
                  match rbind (py_iter content_blocks) (fun blocks => tool_loop blocks []) with
                  | Raise _ => (Ok None, [c1])
                  | Ok tool_results =>
                      let c2 := second_call user_message content_blocks tool_results in
                      match ep 1 c2 with
                      | Raise _ => (Ok None, [c1; c2])
                      | Ok body2 => (returned (final_text body2), [c1; c2])
                      end
                  end
              end
            else (returned (final_text body1), [c1])
        end
    end.
Proof.
  unfold run, invoke_model_with_tools, try_except_None, try_body, mbind,
    invoke_model, lift, first_call; cbn [length app].
  destruct (ep 0 _) as [body1|e]; [|reflexivity].
  destruct (py_get body1 "stop_reason" JNull) as [sr|e]; [|reflexivity].
  destruct (py_eq_str sr "tool_use").
  - unfold tool_round, mbind, lift, invoke_model, second_call.
    destruct (py_get body1 "content" (JArr [])) as [cb|e]; [|reflexivity].
    destruct (rbind (py_iter cb) _) as [rs|e]; [|reflexivity].
    cbn [length app].
    destruct (ep 1 _) as [body2|e]; [|reflexivity].
    unfold returned. destruct (final_text body2); reflexivity.
  - unfold mret, returned. destruct (final_text body1); reflexivity.
Qed.

(** ** The two loops *)

Lemma append_assoc (s1 s2 s3 : string) : (s1 +:+ s2) +:+ s3 = s1 +:+ (s2 +:+ s3).
Proof.
  induction s1 as [|c s1 IH]; [reflexivity|].
  change (String c ((s1 +:+ s2) +:+ s3) = String c (s1 +:+ (s2 +:+ s3))).
  now rewrite IH.
Qed.

Lemma append_empty_r (s : string) : s +:+ "" = s.
Proof.
  induction s as [|c s IH]; [reflexivity|].
  change (String c (s +:+ "") = String c s). now rewrite IH.
Qed.

(** A text loop that ends has appended the texts of the text blocks. *)
Lemma text_loop_sound (blocks : list json) :
  forall acc s,
    text_loop blocks acc = Ok s ->
    s = acc +:+ concat_texts (flat_map text_of_block blocks).
Proof.
  induction blocks as [|block rest IH]; intros acc s H; simpl in H.
  - injection H as <-. simpl. now rewrite append_empty_r.
  - destruct block as [| | | | |fields]; simpl in H; try discriminate.
    cbn [flat_map text_of_block].
    destruct (py_eq_str (default JNull (assoc "type" fields)) "text").
    + destruct (default (JStr "") (assoc "text" fields)) as [| | |t| |];
        try discriminate.
      apply IH in H. subst s. cbn [app]. unfold concat_texts. cbn [foldr].
      now rewrite append_assoc.
    + apply IH in H. exact H.
Qed.

(** On well-typed blocks the text loop ends. *)
Lemma text_loop_typed (blocks : list json) :
  forallb text_typed blocks = true ->
  forall acc, text_loop blocks acc
              = Ok (acc +:+ concat_texts (flat_map text_of_block blocks)).
Proof.
  intros Hty acc.
  assert (exists s, text_loop blocks acc = Ok s) as [s Hs].
  { revert acc. induction blocks as [|block rest IH]; intros acc; simpl.
    - eauto.
    - simpl in Hty. apply andb_prop in Hty as [Hb Hrest].
      destruct block as [| | | | |fields]; simpl in Hb; try discriminate.
      simpl.
      destruct (py_eq_str (default JNull (assoc "type" fields)) "text");
        simpl in Hb; [|now apply IH].
      destruct (default (JStr "") (assoc "text" fields)); try discriminate.
      now apply IH. }
  rewrite Hs. f_equal. now apply text_loop_sound.
Qed.

Lemma final_text_sound (response_body : json) (s : string) :
  final_text response_body = Ok s ->
  s = concat_texts (text_blocks response_body).
Proof.
  unfold final_text, text_blocks.
  destruct response_body as [| | | | |fields]; simpl; try discriminate.
  destruct (default (JArr []) (assoc "content" fields)) as [| | |str|blocks|kvs];
    simpl; try discriminate.
  - (* a str: the first character has no [get] *)
    destruct str as [|c str]; simpl; [|discriminate].
    now intros [= <-].
  - intros H. now apply text_loop_sound in H.
  - (* a dict: the first key has no [get] *)
    destruct kvs as [|kv kvs]; simpl; [|discriminate].
    now intros [= <-].
Qed.

(** The tool loop runs through a prefix and goes on with what it has
    collected. *)
Lemma tool_loop_app (pre post : list json) :
  forall acc,
    tool_loop (pre ++ post) acc = rbind (tool_loop pre acc) (tool_loop post).
Proof.
  induction pre as [|block pre IH]; intros acc; [reflexivity|].
  cbn [app tool_loop].
  destruct (py_get block "type" JNull) as [ty|e]; [|reflexivity].
  cbn [rbind].
  destruct (py_eq_str ty "tool_use"); [|apply IH].
  destruct (py_get block "name" JNull) as [name|e]; [|reflexivity].
  destruct (py_get block "input" (JObj [])) as [input|e]; [|reflexivity].
  destruct (py_get block "id" JNull) as [id|e]; [|reflexivity].
  cbn [rbind].
  destruct (py_eq_str name "cpf_to_username"); [|apply IH].
  destruct (py_get input "cpf" (JStr "")) as [cpf|e]; [|reflexivity].
  cbn [rbind].
  destruct (cpf_to_username cpf) as [res|e]; [|reflexivity].
  cbn [rbind]. apply IH.
Qed.

(** One step of the tool loop on a well-typed block. *)
Lemma tool_loop_step (block : json) (rest acc : list json) :
  tool_typed block = true ->
  tool_loop (block :: rest) acc = tool_loop rest (acc ++ resolved block).
Proof.
  unfold tool_typed, resolved, unknown_tool_use, has_type, handler_typed,
    handler_argument, tool_use_id.
  destruct block as [| | | | |fields]; try discriminate.
  cbn [is_dict andb tool_loop py_get rbind].
  destruct (py_eq_str (default JNull (assoc "type" fields)) "tool_use");
    cbn [negb orb andb]; [|intros _; now rewrite app_nil_r].
  destruct (py_eq_str (default JNull (assoc "name" fields)) "cpf_to_username");
    cbn [negb orb andb]; [|intros _; now rewrite app_nil_r].
  destruct (default (JObj []) (assoc "input" fields)) as [| | | | |args];
    try discriminate.
  cbn [py_get rbind].
  destruct (default (JStr "") (assoc "cpf" args)) as [| | |cpf| |];
    try discriminate.
  intros _. now rewrite cpf_to_username_on_str.
Qed.

(** On well-typed blocks the tool loop collects one result per registered
    tool use, in the order of the blocks. *)
Lemma tool_loop_typed (blocks : list json) :
  forallb tool_typed blocks = true ->
  forall acc, tool_loop blocks acc = Ok (acc ++ flat_map resolved blocks).
Proof.
  induction blocks as [|block rest IH]; intros Hty acc.
  - simpl. now rewrite app_nil_r.
  - cbn [forallb] in Hty. apply andb_prop in Hty as [Hb Hrest].
    rewrite tool_loop_step by exact Hb.
    rewrite IH by exact Hrest.
    cbn [flat_map]. now rewrite app_assoc.
Qed.

(** A tool loop that ends has met well-typed blocks only. *)
Lemma tool_loop_complete (blocks : list json) :
  forall acc tool_results,
    tool_loop blocks acc = Ok tool_results ->
    forallb tool_typed blocks = true.
Proof.
  induction blocks as [|block rest IH]; intros acc rs H; [reflexivity|].
  assert (tool_typed block = true) as Hb.
  { unfold tool_typed, unknown_tool_use, has_type, handler_typed, handler_argument.
    destruct block as [| | | | |fields]; try discriminate.
    cbn [tool_loop py_get rbind] in H. cbn [is_dict andb].
    destruct (py_eq_str (default JNull (assoc "type" fields)) "tool_use");
      [|reflexivity].
    destruct (py_eq_str (default JNull (assoc "name" fields)) "cpf_to_username");
      [|reflexivity].
    cbn [negb orb andb].
    destruct (default (JObj []) (assoc "input" fields)) as [| | | | |args];
      try discriminate.
    cbn [py_get rbind] in H.
    destruct (default (JStr "") (assoc "cpf" args)) as [| | |cpf| |] eqn:E;
      try reflexivity;
      match type of H with
      | context [cpf_to_username ?v] =>
          destruct (cpf_to_username_not_str v eq_refl) as [e He];
          rewrite He in H; discriminate
      end. }
  cbn [forallb]. rewrite Hb. cbn [andb].
  rewrite (tool_loop_step _ _ _ Hb) in H. exact (IH _ _ H).
Qed.

(** The tool loop ends exactly on well-typed blocks. *)
Lemma tool_loop_cases (blocks : list json) :
  if forallb tool_typed blocks
  then tool_loop blocks [] = Ok (flat_map resolved blocks)
  else exists e, tool_loop blocks [] = Raise e.
Proof.
  destruct (forallb tool_typed blocks) eqn:E.
  - now rewrite (tool_loop_typed _ E).
  - destruct (tool_loop blocks []) as [rs|e] eqn:H; [|eauto].
    apply tool_loop_complete in H. congruence.
Qed.

(** A text loop that ends has met well-typed blocks only. *)
Lemma text_loop_complete (blocks : list json) :
  forall acc s,
    text_loop blocks acc = Ok s -> forallb text_typed blocks = true.
Proof.
  induction blocks as [|block rest IH]; intros acc s H; [reflexivity|].
  destruct block as [| | | | |fields]; try discriminate.
  cbn [text_loop py_get rbind] in H. cbn [forallb text_typed].
  destruct (py_eq_str (default JNull (assoc "type" fields)) "text");
    cbn [negb orb]; [|exact (IH _ _ H)].
  destruct (default (JStr "") (assoc "text" fields)); try discriminate.
  exact (IH _ _ H).
Qed.

(** ** Runs, case by case *)

Lemma returned_never_raises (r : result string) (e : exn) : returned r <> Raise e.
Proof. destruct r; discriminate. Qed.

Lemma run_first_call_fails (ep : endpoint) (user_message : string) (e : exn) :
  ep 0 (first_call user_message) = Raise e ->
  run ep user_message = (Ok None, [first_call user_message]).
Proof. intros H. rewrite run_unfold. cbn zeta. now rewrite H. Qed.

Lemma run_no_tool (ep : endpoint) (user_message : string) (body1 : json) :
  ep 0 (first_call user_message) = Ok body1 ->
  tool_requested body1 = false ->
  run ep user_message = (returned (final_text body1), [first_call user_message]).
Proof.
  intros H1 Hstop. rewrite run_unfold. cbn zeta. rewrite H1.
  destruct body1 as [| | | | |fields]; try reflexivity.
  cbn [py_get]. simpl in Hstop. now rewrite Hstop.
Qed.

Lemma run_tool (ep : endpoint) (user_message : string) (body1 : json)
    (blocks : list json) :
  ep 0 (first_call user_message) = Ok body1 ->
  tool_requested body1 = true ->
  blocks_of body1 = Some blocks ->
  run ep user_message =
    match tool_loop blocks [] with
    | Raise _ => (Ok None, [first_call user_message])
    | Ok tool_results =>
        let c2 := second_call user_message (JArr blocks) tool_results in
        (match ep 1 c2 with
         | Raise _ => Ok None
         | Ok body2 => returned (final_text body2)
         end, [first_call user_message; c2])
    end.
Proof.
  intros H1 Hstop Hblocks. rewrite run_unfold. cbn zeta. rewrite H1.
  destruct body1 as [| | | | |fields]; try discriminate.
  cbn [py_get]. simpl in Hstop. rewrite Hstop.
  simpl in Hblocks.
  destruct (default (JArr []) (assoc "content" fields)) as [| | | |items|];
    try discriminate.
  injection Hblocks as ->. cbn [py_iter rbind].
  destruct (tool_loop blocks []) as [rs|e]; [|reflexivity].
  now destruct (ep 1 _).
Qed.

Lemma outcome_never_raises (ep : endpoint) (user_message : string) (e : exn) :
  outcome ep user_message <> Raise e.
Proof.
  unfold outcome. rewrite run_unfold. cbn zeta.
  destruct (ep 0 _) as [body1|]; [|discriminate].
  destruct (py_get body1 _ _) as [sr|]; [|discriminate].
  destruct (py_eq_str sr _); [|apply returned_never_raises].
  destruct (py_get body1 _ _) as [cb|]; [|discriminate].
  destruct (rbind _ _) as [rs|]; [|discriminate].
  destruct (ep 1 _) as [body2|]; [|discriminate].
  apply returned_never_raises.
Qed.

(** The calls of a run: the first request, and after a tool round one
    request more. *)
Lemma calls_shape (ep : endpoint) (user_message : string) :
  calls ep user_message = [first_call user_message]
  \/ exists c2, calls ep user_message = [first_call user_message; c2].
Proof.
  unfold calls. rewrite run_unfold. cbn zeta.
  destruct (ep 0 _) as [body1|]; [|now left].
  destruct (py_get body1 _ _) as [sr|]; [|now left].
  destruct (py_eq_str sr _); [|now left].
  destruct (py_get body1 _ _) as [cb|]; [|now left].
  destruct (rbind _ _) as [rs|]; [|now left].
  right. eexists. now destruct (ep 1 _).
Qed.

(** A run that made two calls returns what the text loop makes of the
    second response, or [None] when the second call failed. *)
Lemma two_calls_outcome (ep : endpoint) (user_message : string) (c1 c2 : call) :
  calls ep user_message = [c1; c2] ->
  outcome ep user_message =
    match ep 1 c2 with
    | Raise _ => Ok None
    | Ok body2 => returned (final_text body2)
    end.
Proof.
  unfold calls, outcome. rewrite run_unfold. cbn zeta.
  destruct (ep 0 _) as [body1|]; [|discriminate].
  destruct (py_get body1 _ _) as [sr|]; [|discriminate].
  destruct (py_eq_str sr _); [|discriminate].
  destruct (py_get body1 _ _) as [cb|]; [|discriminate].
  destruct (rbind _ _) as [rs|]; [|discriminate].
  destruct (ep 1 _) as [body2|] eqn:E2; cbn [fst snd];
    intros [= <- <-]; now rewrite E2.
Qed.

(** A run that made one call returns [None] when that call failed, and
    otherwise what the text loop makes of the first response or [None]. *)
Lemma one_call_outcome (ep : endpoint) (user_message : string) :
  calls ep user_message = [first_call user_message] ->
  match ep 0 (first_call user_message) with
  | Raise _ => outcome ep user_message = Ok None
  | Ok body1 =>
      outcome ep user_message = Ok None
      \/ outcome ep user_message = returned (final_text body1)
  end.
Proof.
  unfold calls, outcome. rewrite run_unfold. cbn zeta.
  destruct (ep 0 _) as [body1|]; [|reflexivity].
  destruct (py_get body1 _ _) as [sr|]; [|now left].
  destruct (py_eq_str sr _); [|now right].
  destruct (py_get body1 _ _) as [cb|]; [|now left].
  destruct (rbind _ _) as [rs|]; [|now left].
  now destruct (ep 1 _).
Qed.

(** ** Properties of the handler *)

(** C9.  A CPF that is in the table neither as given nor reduced to its
    digits is answered with the string ["CPF <cpf> not found in database"]:
    the handler returns normally, and in the tool loop the answer becomes
    the tool result of the block like any other answer. *)
Theorem cpf_miss_is_normal_result (cpf : string) :
  CPF_DATABASE !! cpf = None ->
  CPF_DATABASE !! keep_digits cpf = None ->
  cpf_to_username (JStr cpf) = Ok ("CPF " +:+ cpf +:+ " not found in database")
  /\ forall block rest acc,
       handler_argument block = Some (JStr cpf) ->
       tool_loop (block :: rest) acc =
         tool_loop rest
           (acc ++ [tool_result (tool_use_id block)
                      ("CPF " +:+ cpf +:+ " not found in database")]).
Proof.
  intros Hexact Hdigits.
  assert (cpf_to_username_str cpf = "CPF " +:+ cpf +:+ " not found in database") as Hmiss.
  { unfold cpf_to_username_str. now rewrite Hexact, Hdigits. }
  split.
  - now rewrite cpf_to_username_on_str, Hmiss.
  - intros block rest acc Harg.
    rewrite tool_loop_step.
    + unfold resolved. now rewrite Harg, Hmiss.
    + unfold tool_typed, handler_typed. rewrite Harg.
      destruct block; try discriminate. cbn [is_dict andb].
      now rewrite orb_true_r.
Qed.

Lemma cpf_miss_is_normal_result_witness :
  cpf_to_username (JStr "999.999.999-99")
    = Ok "CPF 999.999.999-99 not found in database"
  /\ tool_loop [Scenario.cpf_use "toolu_01" (JStr "999.999.999-99")] []
     = Ok [tool_result (JStr "toolu_01") "CPF 999.999.999-99 not found in database"].
Proof.
  destruct (cpf_miss_is_normal_result "999.999.999-99") as [Hret Hloop];
    [vm_compute; reflexivity | vm_compute; reflexivity |].
  split; [exact Hret|].
  exact (Hloop (Scenario.cpf_use "toolu_01" (JStr "999.999.999-99")) [] [] eq_refl).
Defined.

(** ** Properties of the round trip *)

(** C4.  When the first response does not ask for a tool, the run makes
    one inference call and returns the texts of the text blocks of that
    response, concatenated in order.  The response is one of the data
    model: its content is a list of dict blocks, and the text of a text
    block is a str. *)
Theorem no_tool_request_single_call (ep : endpoint) (user_message : string)
    (body1 : json) (blocks : list json) :
  ep 0 (first_call user_message) = Ok body1 ->
  tool_requested body1 = false ->
  blocks_of body1 = Some blocks ->
  forallb text_typed blocks = true ->
  run ep user_message
    = (Ok (Some (concat_texts (flat_map text_of_block blocks))),
       [first_call user_message]).
Proof.
  intros H1 Hstop Hblocks Hty.
  rewrite (run_no_tool _ _ _ H1 Hstop). f_equal.
  destruct body1 as [| | | | |fields]; try discriminate.
  unfold final_text. cbn [py_get rbind]. simpl in Hblocks.
  destruct (default (JArr []) (assoc "content" fields)) as [| | | |items|];
    try discriminate.
  injection Hblocks as ->. cbn [py_iter rbind].
  now rewrite (text_loop_typed _ Hty).
Qed.

Lemma no_tool_request_single_call_witness :
  run Scenario.ep_greeting "Hi" = (Ok (Some "Hello, world."), [first_call "Hi"]).
Proof.
  exact (no_tool_request_single_call Scenario.ep_greeting "Hi" Scenario.greeting
           [text_block "Hello, "; text_block "world."]
           eq_refl eq_refl eq_refl eq_refl).
Defined.

(** C7.  A run that returns a string returns the texts of the text blocks
    of the final response, the response to its last call, concatenated in
    order; the string is empty when that response has no text block. *)
Theorem returned_text_is_concatenation (ep : endpoint) (user_message s : string) :
  outcome ep user_message = Ok (Some s) ->
  exists response_body,
    final_response ep user_message = Some response_body
    /\ s = concat_texts (text_blocks response_body)
    /\ (text_blocks response_body = [] -> s = "").
Proof.
  intros Hout.
  assert (forall body, returned (final_text body) = Ok (Some s) ->
            s = concat_texts (text_blocks body)
            /\ (text_blocks body = [] -> s = "")) as Hsound.
  { intros body Hret. unfold returned in Hret.
    destruct (final_text body) as [s'|] eqn:Hft; [|discriminate].
    injection Hret as ->. apply final_text_sound in Hft.
    split; [exact Hft|]. intros Hnil. now rewrite Hft, Hnil. }
  unfold final_response.
  destruct (calls_shape ep user_message) as [Hc|[c2 Hc]].
  - pose proof (one_call_outcome _ _ Hc) as H1. rewrite Hc. cbn [last length].
    change (1 - 1) with 0.
    destruct (ep 0 (first_call user_message)) as [body1|e] eqn:E1.
    + destruct H1 as [H1|H1]; rewrite H1 in Hout; [discriminate|].
      exists body1. split; [reflexivity|]. now apply Hsound.
    + rewrite H1 in Hout. discriminate.
  - pose proof (two_calls_outcome _ _ _ _ Hc) as H2. rewrite Hc. cbn [last length].
    change (2 - 1) with 1.
    destruct (ep 1 c2) as [body2|e] eqn:E2.
    + rewrite H2 in Hout. exists body2. split; [reflexivity|]. now apply Hsound.
    + rewrite H2 in Hout. discriminate.
Qed.

Lemma returned_text_is_concatenation_witness :
  outcome Scenario.ep_pedro "Who has CPF 11122233344?"
    = Ok (Some "The name is Pedro Oliveira.")
  /\ exists response_body,
       final_response Scenario.ep_pedro "Who has CPF 11122233344?" = Some response_body
       /\ "The name is Pedro Oliveira." = concat_texts (text_blocks response_body)
       /\ (text_blocks response_body = [] -> "The name is Pedro Oliveira." = "").
Proof.
  split; [vm_compute; reflexivity|].
  apply returned_text_is_concatenation. vm_compute. reflexivity.
Defined.

(** C8.  A run makes at most two inference calls.  Once the tool loop has
    collected its results, the tool-result message is appended and one
    further call is made.  The response to that call is final whatever its
    stop reason: the run returns what the text loop makes of it, without
    another tool round. *)
Theorem at_most_two_calls (ep : endpoint) (user_message : string) :
  length (calls ep user_message) <= 2
  /\ (forall body1 blocks tool_results,
        ep 0 (first_call user_message) = Ok body1 ->
        tool_requested body1 = true ->
        blocks_of body1 = Some blocks ->
        tool_loop blocks [] = Ok tool_results ->
        calls ep user_message
          = [ first_call user_message;
              second_call user_message (JArr blocks) tool_results ])
  /\ (forall c1 c2 body2,
        calls ep user_message = [c1; c2] ->
        ep 1 c2 = Ok body2 ->
        outcome ep user_message = returned (final_text body2)).
Proof.
  split; [|split].
  - destruct (calls_shape ep user_message) as [->|[c2 ->]]; simpl; lia.
  - intros body1 blocks tool_results H1 Hstop Hblocks Hloop.
    unfold calls. rewrite (run_tool _ _ _ _ H1 Hstop Hblocks), Hloop.
    reflexivity.
  - intros c1 c2 body2 Hc H2.
    rewrite (two_calls_outcome _ _ _ _ Hc). now rewrite H2.
Qed.

(** The second response asks for a tool again: no third call is made and
    the text of the second response is returned. *)
Lemma at_most_two_calls_witness :
  length (calls Scenario.ep_again "Who is it?") <= 2
  /\ calls Scenario.ep_again "Who is it?"
     = [ first_call "Who is it?";
         second_call "Who is it?"
           (JArr [Scenario.cpf_use "toolu_01" (JStr "55566677788")])
           [tool_result (JStr "toolu_01") "Ana Costa"] ]
  /\ tool_requested Scenario.ask_again = true
  /\ outcome Scenario.ep_again "Who is it?" = Ok (Some "One more lookup.").
Proof.
  destruct (at_most_two_calls Scenario.ep_again "Who is it?")
    as (Hle & Hsecond & Hfinal).
  pose proof (Hsecond _ [Scenario.cpf_use "toolu_01" (JStr "55566677788")]
                [tool_result (JStr "toolu_01") "Ana Costa"]
                eq_refl eq_refl eq_refl eq_refl) as Hcalls.
  split; [exact Hle|]. split; [exact Hcalls|]. split; [reflexivity|].
  exact (Hfinal _ _ Scenario.ask_again Hcalls eq_refl).
Defined.

(** C2 as stated fails: the first call fails and the function returns
    [None] to its caller instead of raising. *)
Lemma inference_failure_is_not_raised :
  Scenario.ep_throttled 0 (first_call "Who has CPF 999.999.999-99?")
    = Raise (InferenceError "ThrottlingException")
  /\ outcome Scenario.ep_throttled "Who has CPF 999.999.999-99?" = Ok None
  /\ ~ exists e, outcome Scenario.ep_throttled "Who has CPF 999.999.999-99?" = Raise e.
Proof.
  split; [reflexivity|]. split; [vm_compute; reflexivity|].
  intros [e He]. now apply outcome_never_raises in He.
Qed.

(** C2, amended.  When an inference call of a run fails, the exception is
    caught: the function returns [None], and the failed call is the last
    call of the run (nothing is retried). *)
Theorem inference_failure_returns_None (ep : endpoint) (user_message : string)
    (k : nat) (c : call) (e : exn) :
  calls ep user_message !! k = Some c ->
  ep k c = Raise e ->
  outcome ep user_message = Ok None
  /\ length (calls ep user_message) = S k.
Proof.
  intros Hk Hfail.
  destruct (calls_shape ep user_message) as [Hc|[c2 Hc]].
  - rewrite Hc in Hk |- *.
    destruct k as [|k]; [|destruct k; discriminate].
    injection Hk as <-.
    pose proof (one_call_outcome _ _ Hc) as H1. rewrite Hfail in H1.
    now split.
  - rewrite Hc in Hk |- *.
    destruct k as [|[|k]]; try discriminate.
    + injection Hk as <-.
      pose proof (run_first_call_fails _ _ _ Hfail) as Hrun.
      unfold calls in Hc. rewrite Hrun in Hc. discriminate.
    + injection Hk as <-.
      rewrite (two_calls_outcome _ _ _ _ Hc), Hfail. now split.
Qed.

(** The second call of a run fails. *)
Lemma inference_failure_returns_None_witness :
  outcome Scenario.ep_timeout "Who is it?" = Ok None
  /\ length (calls Scenario.ep_timeout "Who is it?") = 2.
Proof.
  apply (inference_failure_returns_None Scenario.ep_timeout "Who is it?" 1
           (second_call "Who is it?"
              (JArr [Scenario.cpf_use "toolu_01" (JStr "123.456.789-00")])
              [tool_result (JStr "toolu_01") ("Jo" +:+ String a_tilde "o da Silva")])
           (InferenceError "ReadTimeout"));
    vm_compute; reflexivity.
Defined.

(** ** The tool round *)

Lemma tool_loop_handler_raises (block : json) (rest acc : list json)
    (arg : json) (e : exn) :
  handler_argument block = Some arg ->
  cpf_to_username arg = Raise e ->
  tool_loop (block :: rest) acc = Raise e.
Proof.
  unfold handler_argument.
  destruct block as [| | | | |fields]; try discriminate.
  cbn [tool_loop py_get rbind].
  destruct (py_eq_str (default JNull (assoc "type" fields)) "tool_use");
    [|discriminate].
  destruct (py_eq_str (default JNull (assoc "name" fields)) "cpf_to_username");
    [|discriminate].
  cbn [andb].
  destruct (default (JObj []) (assoc "input" fields)) as [| | | | |args];
    try discriminate.
  intros [= <-] Hraise. cbn [py_get rbind]. now rewrite Hraise.
Qed.

Lemma resolved_not_tool_use (block : json) :
  has_type "tool_use" block = false -> resolved block = [].
Proof.
  unfold has_type, resolved, handler_argument.
  destruct block as [| | | | |fields]; try reflexivity.
  now intros ->.
Qed.

Lemma resolved_unknown (block : json) :
  unknown_tool_use block = true -> resolved block = [].
Proof.
  unfold unknown_tool_use, resolved, handler_argument.
  destruct block as [| | | | |fields]; try discriminate.
  intros H. apply andb_prop in H as [-> Hname].
  apply negb_true_iff in Hname. now rewrite Hname.
Qed.

Lemma flat_map_resolved_filter (blocks : list json) :
  flat_map resolved blocks
    = flat_map resolved (List.filter (has_type "tool_use") blocks).
Proof.
  induction blocks as [|block rest IH]; [reflexivity|].
  cbn [flat_map List.filter].
  destruct (has_type "tool_use" block) eqn:E.
  - cbn [flat_map]. now rewrite IH.
  - now rewrite (resolved_not_tool_use _ E).
Qed.

Lemma registered_typed_tool_typed (block : json) :
  registered_typed block = true -> tool_typed block = true.
Proof.
  unfold registered_typed, tool_typed.
  destruct (is_dict block); [|discriminate]. cbn [andb].
  destruct (negb (has_type "tool_use" block)); [reflexivity|].
  cbn [orb]. intros ->. apply orb_true_r.
Qed.

Lemma resolved_answers (blocks : list json) :
  forallb registered_typed blocks = true ->
  Forall2 answers (List.filter (has_type "tool_use") blocks)
                  (flat_map resolved blocks).
Proof.
  induction blocks as [|block rest IH]; intros Hty; [constructor|].
  cbn [forallb] in Hty. apply andb_prop in Hty as [Hb Hrest].
  cbn [flat_map List.filter].
  destruct (has_type "tool_use" block) eqn:E.
  - unfold registered_typed in Hb. rewrite E in Hb.
    apply andb_prop in Hb as [_ Hb]. cbn [negb orb] in Hb.
    unfold handler_typed in Hb. unfold resolved.
    destruct (handler_argument block) as [[| | |cpf| |]|] eqn:Harg;
      try discriminate.
    cbn [app]. constructor; [|now apply IH].
    exists cpf. now split.
  - rewrite (resolved_not_tool_use _ E). cbn [app]. now apply IH.
Qed.

(** C1 as stated fails: the model asks for a tool that is not registered;
    no error is signalled, the second inference call is made and its text
    is returned. *)
Lemma unknown_tool_is_not_signalled :
  unknown_tool_use Scenario.lookup_use = true
  /\ run Scenario.ep_lookup "What is behind key 42?"
     = (Ok (Some "The answer is Alice."),
        [ first_call "What is behind key 42?";
          second_call "What is behind key 42?" (JArr [Scenario.lookup_use]) [] ]).
Proof. split; vm_compute; reflexivity. Qed.

(** An unknown tool use leaves the tool loop as it finds it. *)
Lemma tool_loop_skips_unknown (pre post : list json) (block : json) :
  unknown_tool_use block = true ->
  forall acc,
    tool_loop (pre ++ block :: post) acc = tool_loop (pre ++ post) acc.
Proof.
  intros Hunknown acc. rewrite !tool_loop_app.
  destruct (tool_loop pre acc) as [acc'|e]; [|reflexivity]. cbn [rbind].
  unfold unknown_tool_use in Hunknown.
  destruct block as [| | | | |fields]; try discriminate.
  apply andb_prop in Hunknown as [Hty Hname].
  apply negb_true_iff in Hname.
  cbn [tool_loop py_get rbind]. now rewrite Hty, Hname.
Qed.

(** C1, amended.  A tool-use block whose name is not registered signals
    nothing: it is skipped and gives no tool result, the tool loop goes on
    as if the block were not there, and the function does not raise.  The
    second inference call is made, carrying the results of the other
    blocks, exactly when the other blocks are well typed: each a dict, and
    each use of the registered tool with a dict as input whose CPF is a
    str or absent.  When one of them is not, as when its handler raises,
    the function returns [None] after the one call. *)
Theorem unknown_tool_use_is_skipped (ep : endpoint) (user_message : string)
    (body1 : json) (pre post : list json) (block : json) :
  ep 0 (first_call user_message) = Ok body1 ->
  tool_requested body1 = true ->
  blocks_of body1 = Some (pre ++ block :: post) ->
  unknown_tool_use block = true ->
  resolved block = []
  /\ (forall acc,
        tool_loop (pre ++ block :: post) acc = tool_loop (pre ++ post) acc)
  /\ (forall e, outcome ep user_message <> Raise e)
  /\ (forallb tool_typed (pre ++ post) = true ->
      calls ep user_message
        = [ first_call user_message;
            second_call user_message (JArr (pre ++ block :: post))
              (flat_map resolved (pre ++ post)) ])
  /\ (forallb tool_typed (pre ++ post) = false ->
      run ep user_message = (Ok None, [first_call user_message])).
Proof.
  intros H1 Hstop Hblocks Hunknown.
  pose proof (tool_loop_skips_unknown pre post block Hunknown) as Hskip.
  split; [now apply resolved_unknown|].
  split; [exact Hskip|].
  split; [intros e; apply outcome_never_raises|].
  pose proof (tool_loop_cases (pre ++ post)) as Hloop.
  split; intros Hty; rewrite Hty in Hloop.
  - unfold calls. rewrite (run_tool _ _ _ _ H1 Hstop Hblocks), Hskip, Hloop.
    reflexivity.
  - destruct Hloop as [e Hraise].
    now rewrite (run_tool _ _ _ _ H1 Hstop Hblocks), Hskip, Hraise.
Qed.

(** The unknown tool beside a lookup that is answered, and beside one
    whose handler raises. *)
Lemma unknown_tool_use_is_skipped_witness :
  (resolved Scenario.weather_use = []
   /\ calls Scenario.ep_mixed "Who is it?"
      = [ first_call "Who is it?";
          second_call "Who is it?"
            (JArr [Scenario.cpf_use "toolu_01" (JStr "555.666.777-88"); Scenario.weather_use])
            [tool_result (JStr "toolu_01") "Ana Costa"] ]
   /\ forall e, outcome Scenario.ep_mixed "Who is it?" <> Raise e)
  /\ run Scenario.ep_unknown_and_null "Who is it?"
     = (Ok None, [first_call "Who is it?"]).
Proof.
  split.
  - destruct (unknown_tool_use_is_skipped Scenario.ep_mixed "Who is it?"
                Scenario.ask_mixed
                [Scenario.cpf_use "toolu_01" (JStr "555.666.777-88")] []
                Scenario.weather_use eq_refl eq_refl eq_refl eq_refl)
      as (Hres & _ & Hnever & Hsecond & _).
    split; [exact Hres|]. split; [exact (Hsecond eq_refl) | exact Hnever].
  - destruct (unknown_tool_use_is_skipped Scenario.ep_unknown_and_null "Who is it?"
                Scenario.ask_unknown_and_null
                [] [Scenario.null_use]
                Scenario.weather_use eq_refl eq_refl eq_refl eq_refl)
      as (_ & _ & _ & _ & Hnone).
    exact (Hnone eq_refl).
Defined.

(** C3 as stated fails: the model passes a number as CPF, the handler
    raises, and the run ends there: no tool result is sent, no second call
    is made, and the function returns [None]. *)
Lemma handler_failure_is_not_converted :
  handler_argument (Scenario.cpf_use "toolu_01" (JNum 12345678900))
    = Some (JNum 12345678900)
  /\ cpf_to_username (JNum 12345678900) = Raise TypeError
  /\ run Scenario.ep_number "Who has CPF 12345678900?"
     = (Ok None, [first_call "Who has CPF 12345678900?"]).
Proof. repeat split; vm_compute; reflexivity. Qed.

(** C3, amended.  A handler that raises is not caught at its invocation:
    the exception ends the tool loop and is caught by the handler of the
    whole function, so that no tool-result message is sent, no second
    inference call is made, and the function returns [None]. *)
Theorem handler_failure_aborts_round (ep : endpoint) (user_message : string)
    (body1 : json) (pre post : list json) (block arg : json) (e : exn) :
  ep 0 (first_call user_message) = Ok body1 ->
  tool_requested body1 = true ->
  blocks_of body1 = Some (pre ++ block :: post) ->
  forallb tool_typed pre = true ->
  handler_argument block = Some arg ->
  cpf_to_username arg = Raise e ->
  run ep user_message = (Ok None, [first_call user_message]).
Proof.
  intros H1 Hstop Hblocks Hpre Harg Hraise.
  rewrite (run_tool _ _ _ _ H1 Hstop Hblocks).
  rewrite tool_loop_app, (tool_loop_typed _ Hpre). cbn [rbind].
  now rewrite (tool_loop_handler_raises _ _ _ _ _ Harg Hraise).
Qed.

Lemma handler_failure_aborts_round_witness :
  run Scenario.ep_list "Two names, please."
    = (Ok None, [first_call "Two names, please."]).
Proof.
  exact (handler_failure_aborts_round Scenario.ep_list "Two names, please."
           Scenario.ask_list
           [text_block "Looking up."; Scenario.cpf_use "toolu_01" (JStr "111.222.333-44")]
           [] Scenario.list_use (JArr [JStr "987"; JStr "654"]) TypeError
           eq_refl eq_refl eq_refl eq_refl eq_refl eq_refl).
Defined.

(** C5 as stated fails, in two ways.  A response with one tool use of the
    registered tool whose CPF is [null]: the handler raises and the only
    call made is the first.  A response with one such tool use that stopped
    at the token limit: the tool round is not entered, and again one call
    is made. *)
Lemma single_tool_use_one_call :
  (List.filter (has_type "tool_use") [Scenario.null_use] = [Scenario.null_use]
   /\ handler_argument Scenario.null_use = Some JNull
   /\ calls Scenario.ep_null "Who is it?" = [first_call "Who is it?"])
  /\ (tool_requested Scenario.truncated = false
      /\ handler_argument (Scenario.cpf_use "toolu_01" (JStr "123.456.789-00"))
         = Some (JStr "123.456.789-00")
      /\ calls Scenario.ep_truncated "Who is it?" = [first_call "Who is it?"]).
Proof. repeat split; vm_compute; reflexivity. Qed.

(** C5, amended.  When the first response asks for a tool and holds one
    tool-use block, which names the registered tool and gives a str (or
    nothing) to look up, the run makes two inference calls, and the
    conversation of the second ends with a user message that holds one
    tool result, whose [tool_use_id] is the id of that block. *)
Theorem single_tool_use_two_calls (ep : endpoint) (user_message : string)
    (body1 : json) (blocks : list json) (block : json) (cpf : string) :
  ep 0 (first_call user_message) = Ok body1 ->
  tool_requested body1 = true ->
  blocks_of body1 = Some blocks ->
  forallb is_dict blocks = true ->
  List.filter (has_type "tool_use") blocks = [block] ->
  handler_argument block = Some (JStr cpf) ->
  calls ep user_message
    = [ first_call user_message;
        second_call user_message (JArr blocks)
          [tool_result (tool_use_id block) (cpf_to_username_str cpf)] ].
Proof.
  intros H1 Hstop Hblocks Hdict Hone Harg.
  assert (forallb tool_typed blocks = true) as Hty.
  { apply forallb_forall. intros b Hb.
    unfold tool_typed.
    rewrite (proj1 (forallb_forall _ _) Hdict b Hb). cbn [andb].
    destruct (has_type "tool_use" b) eqn:E; [|reflexivity].
    assert (In b (List.filter (has_type "tool_use") blocks)) as Hin
      by (apply filter_In; now split).
    rewrite Hone in Hin. destruct Hin as [<-|[]].
    unfold handler_typed. rewrite Harg. apply orb_true_r. }
  unfold calls. rewrite (run_tool _ _ _ _ H1 Hstop Hblocks).
  rewrite (tool_loop_typed _ Hty). cbn [app].
  rewrite flat_map_resolved_filter, Hone. cbn [flat_map].
  unfold resolved. rewrite Harg. cbn [app].
  now destruct (ep 1 _).
Qed.

Lemma single_tool_use_two_calls_witness :
  calls Scenario.ep_pedro "Who has CPF 11122233344?"
    = [ first_call "Who has CPF 11122233344?";
        second_call "Who has CPF 11122233344?"
          (JArr [Scenario.cpf_use "toolu_01" (JStr "11122233344")])
          [tool_result (JStr "toolu_01") "Pedro Oliveira"] ].
Proof.
  exact (single_tool_use_two_calls Scenario.ep_pedro "Who has CPF 11122233344?"
           Scenario.ask_pedro
           [Scenario.cpf_use "toolu_01" (JStr "11122233344")]
           (Scenario.cpf_use "toolu_01" (JStr "11122233344")) "11122233344"
           eq_refl eq_refl eq_refl eq_refl eq_refl eq_refl).
Defined.

(** C6 as stated fails: of two tool-use blocks one names a tool that is
    not registered, and the tool-result message holds one result, not
    two. *)
Lemma batched_results_miss_unknown_tool :
  blocks_of Scenario.ask_mixed
    = Some [Scenario.cpf_use "toolu_01" (JStr "555.666.777-88"); Scenario.weather_use]
  /\ length (List.filter (has_type "tool_use")
               [Scenario.cpf_use "toolu_01" (JStr "555.666.777-88"); Scenario.weather_use])
     = 2
  /\ calls Scenario.ep_mixed "Who is it?"
     = [ first_call "Who is it?";
         second_call "Who is it?"
           (JArr [Scenario.cpf_use "toolu_01" (JStr "555.666.777-88"); Scenario.weather_use])
           [tool_result (JStr "toolu_01") "Ana Costa"] ].
Proof. repeat split; vm_compute; reflexivity. Qed.

(** C6, amended.  When the first response asks for a tool and each of its
    tool-use blocks names the registered tool and gives a str (or nothing)
    to look up, the run makes two inference calls, and between the two the
    conversation grows by the assistant message and by one user message
    that holds one tool result per tool-use block, in the order of the
    blocks and each with the id of its block.  With N tool-use blocks the
    message holds N results. *)
Theorem tool_results_batched (ep : endpoint) (user_message : string)
    (body1 : json) (blocks : list json) :
  ep 0 (first_call user_message) = Ok body1 ->
  tool_requested body1 = true ->
  blocks_of body1 = Some blocks ->
  forallb registered_typed blocks = true ->
  exists tool_results,
    calls ep user_message
      = [ first_call user_message;
          second_call user_message (JArr blocks) tool_results ]
    /\ Forall2 answers (List.filter (has_type "tool_use") blocks) tool_results
    /\ length tool_results = length (List.filter (has_type "tool_use") blocks).
Proof.
  intros H1 Hstop Hblocks Hreg.
  assert (forallb tool_typed blocks = true) as Hty.
  { apply forallb_forall. intros b Hb. apply registered_typed_tool_typed.
    exact (proj1 (forallb_forall _ _) Hreg b Hb). }
  pose proof (resolved_answers _ Hreg) as Hans.
  exists (flat_map resolved blocks). split; [|split].
  - unfold calls. rewrite (run_tool _ _ _ _ H1 Hstop Hblocks).
    rewrite (tool_loop_typed _ Hty). cbn [app]. now destruct (ep 1 _).
  - exact Hans.
  - symmetry. exact (Forall2_length _ _ _ Hans).
Qed.

Lemma tool_results_batched_witness :
  exists tool_results,
    calls Scenario.ep_two "Names for 987.654.321-00 and 11122233344?"
      = [ first_call "Names for 987.654.321-00 and 11122233344?";
          second_call "Names for 987.654.321-00 and 11122233344?"
            (JArr [ text_block "I will look both up.";
                    Scenario.cpf_use "toolu_01" (JStr "987.654.321-00");
                    Scenario.cpf_use "toolu_02" (JStr "11122233344") ])
            tool_results ]
    /\ Forall2 answers
         (List.filter (has_type "tool_use")
            [ text_block "I will look both up.";
              Scenario.cpf_use "toolu_01" (JStr "987.654.321-00");
              Scenario.cpf_use "toolu_02" (JStr "11122233344") ])
         tool_results
    /\ length tool_results
       = length (List.filter (has_type "tool_use")
            [ text_block "I will look both up.";
              Scenario.cpf_use "toolu_01" (JStr "987.654.321-00");
              Scenario.cpf_use "toolu_02" (JStr "11122233344") ]).
Proof.
  exact (tool_results_batched Scenario.ep_two
           "Names for 987.654.321-00 and 11122233344?" Scenario.ask_two
           [ text_block "I will look both up.";
             Scenario.cpf_use "toolu_01" (JStr "987.654.321-00");
             Scenario.cpf_use "toolu_02" (JStr "11122233344") ]
           eq_refl eq_refl eq_refl eq_refl).
Defined.

(** ** Cosine similarity *)

Example cosine_parallel :
  Similarity.cosineSimilarity Similarity.sqrt [3; 4]%Z [3; 4]%Z
    = Similarity.Returns Similarity.one.
Proof. vm_compute. reflexivity. Qed.

Example cosine_opposite :
  Similarity.cosineSimilarity Similarity.sqrt [3; 4]%Z [-3; -4]%Z
    = Similarity.Returns (SFopp Similarity.one).
Proof. vm_compute. reflexivity. Qed.

Example cosine_orthogonal :
  Similarity.cosineSimilarity Similarity.sqrt [1; 0]%Z [0; 1]%Z
    = Similarity.Returns Similarity.zero.
Proof. vm_compute. reflexivity. Qed.








(** *** Rounding keeps a product away from zero *)















(** * Further properties *)

(** ** The handler and its table *)

Ltac table_entry H :=
  unfold CPF_DATABASE in H; apply elem_of_list_to_map_2 in H;
  repeat (apply elem_of_cons in H as [H|H]; [injection H as -> ->|]);
  [..|now apply elem_of_nil in H].

(** Each formatted CPF of the table is also there reduced to its digits,
    with the same name. *)
Lemma CPF_DATABASE_digits (cpf name : string) :
  CPF_DATABASE !! cpf = Some name ->
  CPF_DATABASE !! keep_digits cpf = Some name.
Proof. intros H. table_entry H; vm_compute; reflexivity. Qed.

Lemma CPF_DATABASE_names (cpf name : string) :
  CPF_DATABASE !! cpf = Some name -> name <> "".
Proof. intros H. table_entry H; discriminate. Qed.

Lemma keep_digits_isdigit (s : string) :
  forallb isdigit (String.list_ascii_of_string (keep_digits s)) = true.
Proof.
  induction s as [|c s IH]; [reflexivity|].
  cbn [keep_digits]. destruct (isdigit c) eqn:E; [|exact IH].
  cbn [String.list_ascii_of_string forallb]. now rewrite E.
Qed.

Lemma keep_digits_fixed (s : string) :
  forallb isdigit (String.list_ascii_of_string s) = true -> keep_digits s = s.
Proof.
  induction s as [|c s IH]; [reflexivity|].
  cbn [String.list_ascii_of_string forallb keep_digits].
  intros H. apply andb_prop in H as [-> H]. now rewrite IH.
Qed.

(** On a str the answer is decided by the digits. *)
Lemma cpf_to_username_str_digits (cpf : string) :
  cpf_to_username_str cpf
    = match CPF_DATABASE !! keep_digits cpf with
      | Some name => name
      | None => not_found cpf
      end.
Proof.
  unfold cpf_to_username_str, not_found.
  destruct (CPF_DATABASE !! cpf) as [name|] eqn:E; [|reflexivity].
  now rewrite (CPF_DATABASE_digits _ _ E).
Qed.

(** X1.  The handler returns exactly on a str: every other argument the model
    can pass makes it raise. *)
Theorem cpf_to_username_returns_iff_str (cpf : json) :
  (exists res, cpf_to_username cpf = Ok res) <-> is_str cpf = true.
Proof.
  split.
  - intros [res Hres]. destruct (is_str cpf) eqn:E; [reflexivity|].
    destruct (cpf_to_username_not_str _ E) as [e He]. congruence.
  - destruct cpf; try discriminate. intros _.
    eexists. apply cpf_to_username_on_str.
Qed.

(** X2.  The answer depends on the digits of the CPF only: whatever stands
    between the digits, a CPF whose digits are in the table gets the name
    stored for them, and any other CPF gets the message of a miss. *)
Theorem cpf_to_username_by_digits (cpf : string) :
  cpf_to_username (JStr cpf)
    = Ok (match CPF_DATABASE !! keep_digits cpf with
          | Some name => name
          | None => not_found cpf
          end).
Proof. now rewrite cpf_to_username_on_str, cpf_to_username_str_digits. Qed.

(** X3.  Normalising is idempotent, so the digits alone and every formatting
    of them that is found are answered alike. *)
Theorem normalised_cpf_same_name (cpf name : string) :
  CPF_DATABASE !! keep_digits cpf = Some name ->
  cpf_to_username (JStr cpf) = Ok name
  /\ cpf_to_username (JStr (keep_digits cpf)) = Ok name.
Proof.
  intros H. rewrite !cpf_to_username_on_str, !cpf_to_username_str_digits.
  rewrite (keep_digits_fixed _ (keep_digits_isdigit cpf)). now rewrite H.
Qed.

Lemma normalised_cpf_same_name_witness :
  cpf_to_username (JStr "CPF: 987 654 321/00") = Ok "Maria Santos"
  /\ cpf_to_username (JStr (keep_digits "CPF: 987 654 321/00")) = Ok "Maria Santos".
Proof.
  apply (normalised_cpf_same_name "CPF: 987 654 321/00" "Maria Santos").
  vm_compute. reflexivity.
Defined.

(** X4.  What the handler returns is never the empty string. *)
Theorem cpf_to_username_not_empty (cpf : json) (res : string) :
  cpf_to_username cpf = Ok res -> res <> "".
Proof.
  intros H.
  assert (is_str cpf = true) as Hstr.
  { destruct (is_str cpf) eqn:E; [reflexivity|].
    destruct (cpf_to_username_not_str _ E) as [e He]. congruence. }
  destruct cpf as [| | |s| |]; try discriminate.
  rewrite cpf_to_username_on_str, cpf_to_username_str_digits in H.
  injection H as <-.
  destruct (CPF_DATABASE !! keep_digits s) as [name|] eqn:E.
  - exact (CPF_DATABASE_names _ _ E).
  - discriminate.
Qed.

Lemma cpf_to_username_not_empty_witness :
  cpf_to_username (JStr "") = Ok "CPF  not found in database"
  /\ "CPF  not found in database" <> "".
Proof.
  split; [vm_compute; reflexivity|].
  apply (cpf_to_username_not_empty (JStr "")). vm_compute. reflexivity.
Defined.

(** ** Ill-typed responses *)

(** X5.  A first response that is not a JSON object is answered with [None],
    after the one call. *)
Theorem response_not_object_returns_None (ep : endpoint) (user_message : string)
    (body1 : json) :
  ep 0 (first_call user_message) = Ok body1 ->
  is_dict body1 = false ->
  run ep user_message = (Ok None, [first_call user_message]).
Proof.
  intros H1 Hdict. rewrite run_unfold. cbn zeta. rewrite H1.
  now destruct body1.
Qed.

Lemma response_not_object_returns_None_witness :
  run Exchange.ep_array "Hi" = (Ok None, [first_call "Hi"]).
Proof.
  exact (response_not_object_returns_None Exchange.ep_array "Hi"
           (JArr [text_block "Hello."]) eq_refl eq_refl).
Defined.

(** X6.  Without a tool request, the function returns the text exactly when
    every block of the response is a dict and every text block has a str
    as text; one block of another kind loses the whole answer, [None] is
    returned. *)
Theorem text_answer_or_None (ep : endpoint) (user_message : string)
    (body1 : json) (blocks : list json) :
  ep 0 (first_call user_message) = Ok body1 ->
  tool_requested body1 = false ->
  blocks_of body1 = Some blocks ->
  outcome ep user_message =
    if forallb text_typed blocks
    then Ok (Some (concat_texts (flat_map text_of_block blocks)))
    else Ok None.
Proof.
  intros H1 Hstop Hblocks. unfold outcome.
  rewrite (run_no_tool _ _ _ H1 Hstop). cbn [fst].
  destruct body1 as [| | | | |fields]; try discriminate.
  unfold final_text. cbn [py_get rbind]. simpl in Hblocks.
  destruct (default (JArr []) (assoc "content" fields)) as [| | | |items|];
    try discriminate.
  injection Hblocks as ->. cbn [py_iter rbind].
  destruct (forallb text_typed blocks) eqn:E.
  - now rewrite (text_loop_typed _ E).
  - destruct (text_loop blocks "") as [s|e] eqn:H; [|reflexivity].
    apply text_loop_complete in H. congruence.
Qed.

Lemma text_answer_or_None_witness :
  outcome Exchange.ep_stray "Hi" = Ok None.
Proof.
  exact (text_answer_or_None Exchange.ep_stray "Hi" Exchange.stray_block
           [text_block "Half an answer."; JStr "stray"] eq_refl eq_refl eq_refl).
Defined.

(** X7.  In a tool round, the second call is made exactly when every block is
    well typed: a dict, and if it is a use of the registered tool, one
    whose input is a dict with a str (or nothing) to look up.  Otherwise
    the results already collected are dropped and [None] is returned after
    the one call. *)
Theorem tool_round_or_None (ep : endpoint) (user_message : string)
    (body1 : json) (blocks : list json) :
  ep 0 (first_call user_message) = Ok body1 ->
  tool_requested body1 = true ->
  blocks_of body1 = Some blocks ->
  if forallb tool_typed blocks
  then calls ep user_message
       = [ first_call user_message;
           second_call user_message (JArr blocks) (flat_map resolved blocks) ]
  else run ep user_message = (Ok None, [first_call user_message]).
Proof.
  intros H1 Hstop Hblocks.
  pose proof (tool_loop_cases blocks) as Hloop.
  unfold calls. rewrite (run_tool _ _ _ _ H1 Hstop Hblocks).
  destruct (forallb tool_typed blocks).
  - now rewrite Hloop.
  - destruct Hloop as [e ->]. reflexivity.
Qed.

Lemma tool_round_or_None_witness :
  run Exchange.ep_flat "Who are they?" = (Ok None, [first_call "Who are they?"]).
Proof.
  exact (tool_round_or_None Exchange.ep_flat "Who are they?" Exchange.ask_flat
           [ Scenario.cpf_use "toolu_01" (JStr "55566677788");
             tool_use_block "toolu_02" "cpf_to_username" (JStr "98765432100") ]
           eq_refl eq_refl eq_refl).
Defined.

(** ** What is sent *)

(** The calls of a run, with the conversation of the second. *)
Lemma calls_cases (ep : endpoint) (user_message : string) :
  calls ep user_message = [first_call user_message]
  \/ exists body1 content blocks,
       ep 0 (first_call user_message) = Ok body1
       /\ tool_requested body1 = true
       /\ py_get body1 "content" (JArr []) = Ok content
       /\ py_iter content = Ok blocks
       /\ forallb tool_typed blocks = true
       /\ calls ep user_message
          = [ first_call user_message;
              second_call user_message content (flat_map resolved blocks) ].
Proof.
  unfold calls. rewrite run_unfold. cbn zeta.
  destruct (ep 0 _) as [body1|]; [|now left].
  destruct body1 as [| | | | |fields]; try now left.
  cbn [py_get].
  destruct (py_eq_str _ "tool_use") eqn:Hstop; [|now left].
  destruct (py_iter _) as [blocks|] eqn:Hiter; [|now left]. cbn [rbind].
  destruct (tool_loop blocks []) as [rs|] eqn:Hloop; [|now left].
  right. exists (JObj fields), (default (JArr []) (assoc "content" fields)), blocks.
  pose proof (tool_loop_complete _ _ _ Hloop) as Hty.
  rewrite (tool_loop_typed _ Hty) in Hloop. injection Hloop as <-.
  repeat split; try assumption. now destruct (ep 1 _).
Qed.

(** X8.  A second inference call is made only after a first response that asks
    for a tool. *)
Theorem second_call_only_on_tool_use (ep : endpoint) (user_message : string) :
  length (calls ep user_message) = 2 ->
  exists body1,
    ep 0 (first_call user_message) = Ok body1 /\ tool_requested body1 = true.
Proof.
  intros Hlen.
  destruct (calls_cases ep user_message)
    as [Hc|(body1 & content & blocks & H1 & Hstop & _)].
  - rewrite Hc in Hlen. discriminate.
  - eauto.
Qed.

Lemma second_call_only_on_tool_use_witness :
  exists body1,
    Scenario.ep_pedro 0 (first_call "Who has CPF 11122233344?") = Ok body1
    /\ tool_requested body1 = true.
Proof.
  apply second_call_only_on_tool_use. vm_compute. reflexivity.
Defined.



(** X10.  Every request of a run goes to the same model with the same version,
    token limit and tool declarations, and its conversation begins with
    the message of the user. *)
Theorem requests_share_declarations (ep : endpoint) (user_message : string)
    (c : call) :
  In c (calls ep user_message) ->
  modelId c = model_id
  /\ exists messages,
       body c = JObj [ ("anthropic_version", JStr "bedrock-2023-05-31");
                       ("max_tokens", JNum 500);
                       ("tools", tools);
                       ("messages",
                        JArr (message "user" (JStr user_message) :: messages)) ].
Proof.
  intros Hin.
  destruct (calls_cases ep user_message)
    as [Hc|(body1 & content & blocks & _ & _ & _ & _ & _ & Hc)];
    rewrite Hc in Hin.
  - destruct Hin as [<-|[]]. split; [reflexivity|]. now exists [].
  - destruct Hin as [<-|[<-|[]]]; (split; [reflexivity|]).
    + now exists [].
    + eexists. reflexivity.
Qed.

Lemma requests_share_declarations_witness :
  modelId (first_call "Hi") = model_id
  /\ exists messages,
       body (first_call "Hi")
         = JObj [ ("anthropic_version", JStr "bedrock-2023-05-31");
                  ("max_tokens", JNum 500);
                  ("tools", tools);
                  ("messages", JArr (message "user" (JStr "Hi") :: messages)) ].
Proof.
  apply (requests_share_declarations Scenario.ep_greeting "Hi").
  left. reflexivity.
Defined.

(** X11.  A use of the registered tool that comes without input, or whose input
    has no ["cpf"], does not fail: the handler is asked for the empty CPF
    and its miss becomes the tool result, under the id of the block or
    under [null] when the block has none. *)
Theorem missing_argument_is_a_miss (fields : list (string * json))
    (rest acc : list json) :
  py_eq_str (default JNull (assoc "type" fields)) "tool_use" = true ->
  py_eq_str (default JNull (assoc "name" fields)) "cpf_to_username" = true ->
  assoc "input" fields = None
  \/ (exists args, assoc "input" fields = Some (JObj args) /\ assoc "cpf" args = None) ->
  tool_loop (JObj fields :: rest) acc
    = tool_loop rest
        (acc ++ [tool_result (default JNull (assoc "id" fields))
                   "CPF  not found in database"]).
Proof.
  intros Hty Hname Hin.
  assert (handler_argument (JObj fields) = Some (JStr "")) as Harg.
  { unfold handler_argument. rewrite Hty, Hname. cbn [andb].
    destruct Hin as [->|(args & -> & Hcpf)]; [reflexivity|].
    change (Some (default (JStr "") (assoc "cpf" args)) = Some (JStr "")).
    now rewrite Hcpf. }
  rewrite tool_loop_step.
  - unfold resolved. now rewrite Harg.
  - unfold tool_typed, handler_typed. rewrite Harg. cbn [is_dict andb].
    apply orb_true_r.
Qed.

Lemma missing_argument_is_a_miss_witness :
  tool_loop [JObj Exchange.bare_use; JObj Exchange.anonymous_use] []
    = Ok [ tool_result (JStr "toolu_01") "CPF  not found in database";
           tool_result JNull "CPF  not found in database" ].
Proof.
  rewrite (missing_argument_is_a_miss Exchange.bare_use
             [JObj Exchange.anonymous_use] [] eq_refl eq_refl (or_introl eq_refl)).
  exact (missing_argument_is_a_miss Exchange.anonymous_use [] _ eq_refl eq_refl
           (or_intror (ex_intro _ [("name", JStr "Maria")] (conj eq_refl eq_refl)))).
Defined.
